(** * A placeholder web service: one route, one handler, one bootstrap call

    Shallow embedding of [main.py]:

<<
    from fastapi import FastAPI, Response, status

    app = FastAPI()

    @app.get("/")
    def read_root():
        return Response(status_code=status.HTTP_204_NO_CONTENT)

    if __name__ == "__main__":
        import uvicorn
        uvicorn.run(app, host="0.0.0.0", port=8000)
>>

    The module is twelve lines long; everything else it does is done by the
    three library calls it makes ([FastAPI()], [app.get], [uvicorn.run]) and
    by the [Response] constructor.  Those calls are modelled here after the
    libraries' behaviour (each definition says which library function it
    follows), the module itself statement by statement, in a state-and-
    exception monad over the process state. *)

From Stdlib Require Import String Ascii List ZArith Lia Bool.
From Stdlib Require Import DecimalString Wf_nat.
Import ListNotations.

Local Open Scope string_scope.
Local Open Scope Z_scope.

(** ** Strings as Python uses them here *)

Module PyStr.

(** The line feed and the double quote, which a literal cannot hold. *)
Definition LF : string := String "010"%char EmptyString.
Definition DQ : string := String "034"%char EmptyString.

(** [s.endswith(c)] for a one-character [c]. *)
Fixpoint endswith (c : ascii) (s : string) : bool :=
  match s with
  | EmptyString => false
  | String a EmptyString => Ascii.eqb a c
  | String _ s' => endswith c s'
  end.

(** [s.rstrip(c)]: every trailing [c] is removed. *)
Fixpoint rstrip (c : ascii) (s : string) : string :=
  match s with
  | EmptyString => EmptyString
  | String a s' =>
      match rstrip c s' with
      | EmptyString => if Ascii.eqb a c then EmptyString else String a EmptyString
      | r => String a r
      end
  end.

(** [c.lower()] and [s.lower()] on ASCII. *)
Definition lower_ascii (c : ascii) : ascii :=
  let n := nat_of_ascii c in
  if andb (Nat.leb 65 n) (Nat.leb n 90) then ascii_of_nat (n + 32) else c.

Fixpoint lower (s : string) : string :=
  match s with
  | EmptyString => EmptyString
  | String a s' => String (lower_ascii a) (lower s')
  end.

(** [sub in s]. *)
Fixpoint contains (sub s : string) : bool :=
  if String.prefix sub s then true
  else match s with
       | EmptyString => false
       | String _ s' => contains sub s'
       end.

(** [sep.join(l)]. *)
Fixpoint join (sep : string) (l : list string) : string :=
  match l with
  | [] => ""
  | [x] => x
  | x :: l' => x ++ sep ++ join sep l'
  end.

(** [str(len(s))]. *)
Definition str_len (s : string) : string :=
  NilEmpty.string_of_uint (Nat.to_uint (String.length s)).

(** [x in l] for a collection of strings. *)
Definition mem (x : string) (l : list string) : bool :=
  existsb (String.eqb x) l.

End PyStr.

(** ** Requests and responses *)

(** [fastapi.status]: the constants the program and the libraries name. *)
Module status.
Definition HTTP_200_OK : Z := 200.
Definition HTTP_204_NO_CONTENT : Z := 204.
Definition HTTP_205_RESET_CONTENT : Z := 205.
Definition HTTP_304_NOT_MODIFIED : Z := 304.
Definition HTTP_307_TEMPORARY_REDIRECT : Z := 307.
Definition HTTP_404_NOT_FOUND : Z := 404.
Definition HTTP_405_METHOD_NOT_ALLOWED : Z := 405.
End status.

Definition Headers := list (string * string).

(** A request as the server hands it to the application: the method as sent,
    the percent-decoded path, and the parts no route of this program looks
    at. *)
Record Request : Type := mkRequest {
  req_method : string;
  req_path : string;
  req_query_string : string;
  req_headers : Headers;
  req_body : string
}.

(** A response object after construction: [status_code], the rendered
    [body], and [raw_headers] in the order the constructor appends them. *)
Record Response : Type := mkResponse {
  status_code : Z;
  body : string;
  raw_headers : Headers
}.

Module Responses.

(** [Response.render]: [None] renders to the empty byte string. *)
Definition render (content : option string) : string :=
  match content with
  | None => ""
  | Some s => s
  end.

(** [Response.init_headers]: the caller's headers with lower-cased names,
    then [content-length] unless the caller gave one or the status is
    below 200, 204 or 304, then [content-type] when there is a media type
    and the caller gave none. *)
Definition init_headers (status_code : Z) (body : string)
    (headers : option Headers) (media_type : option string) : Headers :=
  let raw := match headers with
             | None => []
             | Some hs => map (fun kv => (PyStr.lower (fst kv), snd kv)) hs
             end in
  let keys := map fst raw in
  let populate_content_length :=
    match headers with
    | None => true
    | Some _ => negb (PyStr.mem "content-length" keys)
    end in
  let populate_content_type :=
    match headers with
    | None => true
    | Some _ => negb (PyStr.mem "content-type" keys)
    end in
  let raw :=
    if populate_content_length
       && negb ((status_code <? 200)
                || (status_code =? 204) || (status_code =? 304))
    then (raw ++ [("content-length", PyStr.str_len body)])%list
    else raw in
  match media_type with
  | Some content_type =>
      if populate_content_type then
        let content_type :=
          if String.prefix "text/" content_type
             && negb (PyStr.contains "charset=" (PyStr.lower content_type))
          then content_type ++ "; charset=utf-8"
          else content_type in
        (raw ++ [("content-type", content_type)])%list
      else raw
  | None => raw
  end.

(** [Response(content=None, status_code=200, headers=None,
    media_type=None)], the constructor with all four arguments given. *)
Definition Response_init (content : option string) (status_code : Z)
    (headers : option Headers) (media_type : option string) : Response :=
  let body := render content in
  mkResponse status_code body (init_headers status_code body headers media_type).

(** [JSONResponse(content, status_code, headers)], [content] already
    rendered to JSON text. *)
Definition JSONResponse (json : string) (status_code : Z)
    (headers : option Headers) : Response :=
  Response_init (Some json) status_code headers (Some "application/json").

(** [HTMLResponse(content)]. *)
Definition HTMLResponse (html : string) : Response :=
  Response_init (Some html) status.HTTP_200_OK None (Some "text/html").

(** [RedirectResponse(url)]: an empty body, status 307, and a [location]
    header set after construction. *)
Definition RedirectResponse (location : string) : Response :=
  let r := Response_init (Some "") status.HTTP_307_TEMPORARY_REDIRECT None None in
  mkResponse (status_code r) (body r) (raw_headers r ++ [("location", location)])%list.

End Responses.

(** ** Routes *)

(** The functions a route of this application can lead to: the program's
    own handler, and the four documentation endpoints that [FastAPI()]
    defines inside its constructor. *)
Inductive Endpoint : Type :=
| EP_read_root
| EP_openapi
| EP_swagger_ui_html
| EP_swagger_ui_redirect
| EP_redoc_html.

(** A route: its literal path (no route here has a path parameter), the
    methods it accepts, and its endpoint. *)
Record Route : Type := mkRoute {
  path : string;
  methods : list string;
  endpoint : Endpoint
}.

Inductive Match : Type := NONE | PARTIAL | FULL.

Module Routing.

(** [compile_path(path)] followed by [path_regex.match(route_path)].
    For a path without parameters the compiled pattern is
    ['^' + re.escape(path) + '$'], and Python's ['$'] matches at the end
    of the string and also just before a line feed that ends it. *)
Definition path_regex_match (path route_path : string) : bool :=
  (route_path =? path)%string || (route_path =? path ++ PyStr.LF)%string.

(** [Route.matches]: no match, a match on the path alone, or a match on
    path and method. *)
Definition matches (r : Route) (req : Request) : Match :=
  if path_regex_match (path r) (req_path req) then
    match methods r with
    | [] => FULL
    | ms => if PyStr.mem (req_method req) ms then FULL else PARTIAL
    end
  else NONE.

Definition is_NONE (m : Match) : bool :=
  match m with NONE => true | _ => false end.

(** The first loop of [Router.app]: the first route that matches in full
    wins; failing that, the first partial match is remembered. *)
Fixpoint scan_routes (rs : list Route) (req : Request)
    (partial : option Route) : Route + option Route :=
  match rs with
  | [] => inr partial
  | r :: rs' =>
      match matches r req with
      | FULL => inl r
      | PARTIAL =>
          scan_routes rs' req
            (match partial with None => Some r | Some p => Some p end)
      | NONE => scan_routes rs' req partial
      end
  end.

(** The scope [Router.app] retries with when nothing matched: the path
    with its trailing slashes removed, or with one slash added. *)
Definition redirect_scope (req : Request) : Request :=
  let p := req_path req in
  let p' := if PyStr.endswith "/" p then PyStr.rstrip "/" p else p ++ "/" in
  mkRequest (req_method req) p' (req_query_string req)
            (req_headers req) (req_body req).

(** [Starlette.add_route(path, endpoint)] as [FastAPI.setup] calls it:
    no methods given means GET, and a route for GET also takes HEAD. *)
Definition starlette_Route (p : string) (e : Endpoint) : Route :=
  mkRoute p ["GET"; "HEAD"] e.

(** [APIRoute(path, endpoint, methods=["GET"])] as [app.get] builds it:
    exactly the methods given. *)
Definition APIRoute (p : string) (ms : list string) (e : Endpoint) : Route :=
  mkRoute p ms e.

End Routing.

(** The documents the framework generates for its documentation endpoints
    and the URL it redirects to.  Their text is the framework's business;
    nothing the program does depends on it. *)
Class FrameworkText : Type := {
  get_openapi : list Route -> string;
  get_swagger_ui_html : Request -> string;
  get_swagger_ui_oauth2_redirect_html : string;
  get_redoc_html : Request -> string;
  redirect_url : Request -> string
}.

(** ** Process state and effects *)

(** The application object: its routing table and the cached OpenAPI
    schema, the two attributes that handling a request can reach. *)
Record FastAPI : Type := mkFastAPI {
  routes : list Route;
  openapi_schema : option string
}.

(** What the process does to the outside world. *)
Inductive Event : Type :=
| Bind (host : string) (port : Z)
| Started
| Sent (r : Response)
| Stopped.

(** The module's global [app] (unbound until line 3 runs) and the trace of
    events so far. *)
Record World : Type := mkWorld {
  app : option FastAPI;
  events : list Event
}.

Inductive Exn : Type :=
| SystemExit (code : Z)
| NameError (name : string)
| HTTPException (status_code : Z) (detail : string) (headers : option Headers).

Inductive Result (A : Type) : Type :=
| Ok (a : A)
| Raise (e : Exn).
Arguments Ok {A} a.
Arguments Raise {A} e.

(** Computations that read and write the world and may raise; what was
    written before an exception stays written. *)
Definition M (A : Type) : Type := World -> Result A * World.

Definition ret {A} (a : A) : M A := fun w => (Ok a, w).

Definition bind {A B} (c : M A) (k : A -> M B) : M B :=
  fun w => match c w with
           | (Ok a, w') => k a w'
           | (Raise e, w') => (Raise e, w')
           end.

Definition raise {A} (e : Exn) : M A := fun w => (Raise e, w).

(** [try: c  except Exception as e: h(e)]. *)
Definition catch {A} (c : M A) (h : Exn -> M A) : M A :=
  fun w => match c w with
           | (Ok a, w') => (Ok a, w')
           | (Raise e, w') => h e w'
           end.

Declare Scope py_scope.
Delimit Scope py_scope with py.
Notation "x <- c ;; k" := (bind c (fun x => k))
  (at level 61, c at next level, right associativity) : py_scope.
Notation "c ;; k" := (bind c (fun _ => k))
  (at level 61, right associativity) : py_scope.
Local Open Scope py_scope.

(** Reading the global [app]. *)
Definition get_app : M FastAPI :=
  fun w => match app w with
           | Some a => (Ok a, w)
           | None => (Raise (NameError "app"), w)
           end.

Definition set_app (a : FastAPI) : M unit :=
  fun w => (Ok tt, mkWorld (Some a) (events w)).

Definition emit (e : Event) : M unit :=
  fun w => (Ok tt, mkWorld (app w) (events w ++ [e])).

(** ** The handler

    [def read_root(): return Response(status_code=status.HTTP_204_NO_CONTENT)].
    It takes no parameter, so nothing of the request reaches it; the other
    three constructor arguments keep their defaults. *)
Definition read_root : M Response :=
  ret (Responses.Response_init None status.HTTP_204_NO_CONTENT None None).

(** The external world a run of the process meets: environment variables,
    command-line arguments, whether a listener can be bound on an address,
    and the requests that arrive before the server is told to stop. *)
Record Env : Type := mkEnv {
  environ : list (string * string);
  argv : list string;
  can_bind : string -> Z -> bool;
  incoming : list Request
}.

Section Application.

Context {FT : FrameworkText}.

(** *** The framework's side of the application object *)

(** [FastAPI()] with every argument at its default: [setup] installs the
    schema route and the three documentation pages, in this order, before
    the program adds anything. *)
Definition FastAPI_new : FastAPI :=
  mkFastAPI
    [ Routing.starlette_Route "/openapi.json" EP_openapi;
      Routing.starlette_Route "/docs" EP_swagger_ui_html;
      Routing.starlette_Route "/docs/oauth2-redirect" EP_swagger_ui_redirect;
      Routing.starlette_Route "/redoc" EP_redoc_html ]
    None.

(** [@app.get(path)] applied to a function: one [APIRoute] for GET is
    appended to the routing table. *)
Definition app_get (p : string) (e : Endpoint) : M unit :=
  a <- get_app ;;
  set_app (mkFastAPI (routes a ++ [Routing.APIRoute p ["GET"] e])
                     (openapi_schema a)).

(** [FastAPI.openapi]: the schema is generated from the routes on first
    use and cached on the application object. *)
Definition FastAPI_openapi : M string :=
  a <- get_app ;;
  match openapi_schema a with
  | Some s => ret s
  | None =>
      let s := get_openapi (routes a) in
      set_app (mkFastAPI (routes a) (Some s)) ;;
      ret s
  end.

(** Calling an endpoint with the arguments the framework works out from
    its signature: none for [read_root], the request for the framework's
    own pages. *)
Definition call_endpoint (e : Endpoint) (req : Request) : M Response :=
  match e with
  | EP_read_root => read_root
  | EP_openapi =>
      s <- FastAPI_openapi ;;
      ret (Responses.JSONResponse s status.HTTP_200_OK None)
  | EP_swagger_ui_html =>
      ret (Responses.HTMLResponse (get_swagger_ui_html req))
  | EP_swagger_ui_redirect =>
      ret (Responses.HTMLResponse get_swagger_ui_oauth2_redirect_html)
  | EP_redoc_html =>
      ret (Responses.HTMLResponse (get_redoc_html req))
  end.

(** [Route.handle]: a method the route does not take raises 405 with an
    [Allow] header, anything else calls the endpoint. *)
Definition Route_handle (r : Route) (req : Request) : M Response :=
  match methods r with
  | [] => call_endpoint (endpoint r) req
  | ms =>
      if PyStr.mem (req_method req) ms
      then call_endpoint (endpoint r) req
      else raise (HTTPException status.HTTP_405_METHOD_NOT_ALLOWED
                    "Method Not Allowed"
                    (Some [("Allow", PyStr.join ", " ms)]))
  end.

(** [Router.not_found] inside an application. *)
Definition not_found : M Response :=
  raise (HTTPException status.HTTP_404_NOT_FOUND "Not Found" None).

(** [Router.app]: full match, else first partial match, else a redirect
    when the path with its trailing slash toggled matches some route,
    else not found. *)
Definition Router_app (req : Request) : M Response :=
  a <- get_app ;;
  match Routing.scan_routes (routes a) req None with
  | inl r => Route_handle r req
  | inr (Some r) => Route_handle r req
  | inr None =>
      if negb (req_path req =? "/")%string
         && existsb (fun r => negb (Routing.is_NONE
                                      (Routing.matches r (Routing.redirect_scope req))))
                    (routes a)
      then ret (Responses.RedirectResponse
                  (redirect_url (Routing.redirect_scope req)))
      else not_found
  end.

Definition is_body_allowed_for_status_code (sc : Z) : bool :=
  negb ((sc <? 200) || (sc =? 204) || (sc =? 205) || (sc =? 304)).

(** [http_exception_handler]: the exception as a JSON document
    [{"detail": ...}], or a bare response when the status allows no
    body. *)
Definition http_exception_handler (sc : Z) (detail : string)
    (headers : option Headers) : Response :=
  if is_body_allowed_for_status_code sc
  then Responses.JSONResponse
         ("{" ++ PyStr.DQ ++ "detail" ++ PyStr.DQ ++ ":"
              ++ PyStr.DQ ++ detail ++ PyStr.DQ ++ "}")
         sc headers
  else Responses.Response_init None sc headers None.

(** [FastAPI.__call__]: the router inside the exception middleware. *)
Definition FastAPI_call (req : Request) : M Response :=
  catch (Router_app req)
        (fun e => match e with
                  | HTTPException sc detail headers =>
                      ret (http_exception_handler sc detail headers)
                  | _ => raise e
                  end).

(** *** The server *)

(** What the server sends when the application itself raises. *)
Definition send_500_response : Response :=
  mkResponse 500 "Internal Server Error"
    [("content-type", "text/plain; charset=utf-8"); ("connection", "close")].

(** The accept loop, one request after the other: each request goes to
    the application object as it is at that moment, and the response is
    sent. *)
Fixpoint serve (reqs : list Request) : M unit :=
  match reqs with
  | [] => ret tt
  | req :: reqs' =>
      resp <- catch (FastAPI_call req) (fun _ => ret send_500_response) ;;
      emit (Sent resp) ;;
      serve reqs'
  end.

(** [uvicorn.run(app, host=..., port=...)]: one attempt to bind; on
    failure the server logs the error and leaves through [sys.exit(1)],
    otherwise it serves until it is stopped and returns. *)
Definition uvicorn_run (env : Env) (host : string) (port : Z) : M unit :=
  emit (Bind host port) ;;
  if can_bind env host port then
    emit Started ;;
    serve (incoming env) ;;
    emit Stopped
  else raise (SystemExit 1).

(** *** The module, statement by statement *)

Definition main (name : string) (env : Env) : M unit :=
  (* app = FastAPI() *)
  set_app FastAPI_new ;;
  (* @app.get("/")  def read_root(): ... *)
  app_get "/" EP_read_root ;;
  (* if __name__ == "__main__": *)
  if (name =? "__main__")%string then
    (* import uvicorn; uvicorn.run(app, host="0.0.0.0", port=8000) *)
    uvicorn_run env "0.0.0.0" 8000
  else ret tt.

(** The interpreter around the module: a fresh process, and the exit
    status Python derives from how the module ended. *)
Definition fresh : World := mkWorld None [].

Definition exit_status {A} (r : Result A) : Z :=
  match r with
  | Ok _ => 0
  | Raise (SystemExit code) => code mod 256
  | Raise _ => 1
  end.

Definition run_module (name : string) (env : Env) : Z * World :=
  let (r, w) := main name env fresh in (exit_status r, w).

(** The application object once the module body has run as a library. *)
Definition loaded_app : FastAPI :=
  mkFastAPI (routes FastAPI_new ++ [Routing.APIRoute "/" ["GET"] EP_read_root])
            None.

End Application.

(** ** Names used in the statements *)

(** The response the specification promises for [GET /]. *)
Definition no_content : Response := mkResponse 204 "" [].

(** The one route the program registers. *)
Definition root_route : Route := mkRoute "/" ["GET"] EP_read_root.

(** A world in which the module has been loaded: [app] is bound and its
    routing table is the one the module body builds (whether or not the
    schema has been cached since). *)
Definition serving (w : World) : Prop :=
  exists a, app w = Some a /\ routes a = routes loaded_app.

(** A request for [GET /], whatever else it carries. *)
Definition is_get_root (req : Request) : Prop :=
  req_method req = "GET" /\ req_path req = "/".

(** A path no route of the table answers to, with or without its trailing
    slash. *)
Definition undefined_path (rs : list Route) (req : Request) : Prop :=
  forall r, In r rs ->
    Routing.matches r req = NONE /\
    Routing.matches r (Routing.redirect_scope req) = NONE.

(** [frame w w']: going from [w] to [w'] sent nothing, bound nothing, and
    left the routing table of a bound [app] as it was. *)
Definition frame (w w' : World) : Prop :=
  events w' = events w /\
  forall a, app w = Some a ->
    exists a', app w' = Some a' /\ routes a' = routes a.

Section Outcomes.

Context {FT : FrameworkText}.

(** The four ways the router can go. *)
Inductive Routed (a : FastAPI) (req : Request) (w : World)
  : Result Response * World -> Prop :=
| Routed_full r :
    In r (routes a) -> Routing.matches r req = FULL ->
    Routed a req w (call_endpoint (endpoint r) req w)
| Routed_partial r :
    In r (routes a) -> Routing.matches r req = PARTIAL ->
    Routed a req w
      (Raise (HTTPException status.HTTP_405_METHOD_NOT_ALLOWED "Method Not Allowed"
                (Some [("Allow", PyStr.join ", " (methods r))])), w)
| Routed_redirect :
    (forall r, In r (routes a) -> Routing.matches r req = NONE) ->
    req_path req <> "/" ->
    Routed a req w
      (Ok (Responses.RedirectResponse (redirect_url (Routing.redirect_scope req))), w)
| Routed_not_found :
    (forall r, In r (routes a) -> Routing.matches r req = NONE) ->
    Routed a req w (Raise (HTTPException status.HTTP_404_NOT_FOUND "Not Found" None), w).

End Outcomes.

(** The addresses the process tried to bind, in order. *)
Fixpoint binds (evs : list Event) : list (string * Z) :=
  match evs with
  | [] => []
  | Bind h p :: evs' => (h, p) :: binds evs'
  | _ :: evs' => binds evs'
  end.

(** The status codes the loaded application can answer with. *)
Definition answer_statuses : list Z := [200; 204; 307; 404; 405].

(** The response to a method the root route does not take. *)
Definition root_method_not_allowed : Response :=
  mkResponse 405
    ("{" ++ PyStr.DQ ++ "detail" ++ PyStr.DQ ++ ":"
         ++ PyStr.DQ ++ "Method Not Allowed" ++ PyStr.DQ ++ "}")
    [("allow", "GET"); ("content-length", "31");
     ("content-type", "application/json")].

(** Concrete data for running the model. *)
Module Sample.

#[export] Instance text : FrameworkText := {|
  get_openapi := fun _ => "{}";
  get_swagger_ui_html := fun _ => "<html>swagger</html>";
  get_swagger_ui_oauth2_redirect_html := "<html>oauth2</html>";
  get_redoc_html := fun _ => "<html>redoc</html>";
  redirect_url := fun req => "http://testserver" ++ req_path req
|}.

Definition request (m p : string) : Request := mkRequest m p "" [] "".

(** A GET for [/] that carries a query string, headers and a body. *)
Definition busy_get_root : Request :=
  mkRequest "GET" "/" "a=1&b=2" [("x-trace", "abc"); ("accept", "*/*")] "payload".

Definition loaded : World := mkWorld (Some loaded_app) [].

(** A loaded world with history: the schema already cached, one response
    already sent. *)
Definition warm : World :=
  mkWorld (Some (mkFastAPI (routes loaded_app) (Some "{}")))
          [Bind "0.0.0.0" 8000; Started; Sent no_content].

Definition env (ok : bool) (reqs : list Request) : Env :=
  mkEnv [("PORT", "9000"); ("HOST", "127.0.0.1")]
        ["main.py"; "--port"; "9000"]
        (fun _ _ => ok) reqs.

End Sample.

(** ** The handler as written

    [Response_init] and [read_root] above are functions, and a function
    returns by construction.  To say that the body of [read_root] has no
    loop, calls nothing but the [Response] constructor and comes back after
    a fixed number of steps, the body is given here as syntax, in a
    fragment of Python that can loop, recurse and block, with an evaluator
    that runs out of fuel on a computation that does not end. *)
Module Py.

#[local] Unset Elimination Schemes.

Inductive expr : Type :=
| Const (z : Z)
| Name (x : string)
| Attr (e : expr) (a : string)
| Call (f : expr) (args : list expr) (kwargs : list (string * expr)).

#[local] Set Elimination Schemes.

Inductive stmt : Type :=
| Pass
| Expr (e : expr)
| Return (e : expr)
| Seq (s1 s2 : stmt)
| While (c : expr) (body : stmt).

(** [def fname(fparams): fbody]. *)
Record FunDef : Type := mkFunDef {
  fname : string;
  fparams : list string;
  fbody : stmt
}.

Inductive value : Type :=
| VNone
| VInt (z : Z)
| VModule (m : string)
| VClass (c : string)
| VBuiltin (b : string)
| VFunction (f : string)
| VResponse (r : Response).

Inductive error : Type :=
| ErrName (x : string)
| ErrAttribute (a : string)
| ErrType (what : string).

(** What a thread can be seen waiting on. *)
Inductive effect : Type :=
| Slept (seconds : Z).

(** A module after its imports and definitions have run: the global names
    and the functions defined. *)
Record Program : Type := mkProgram {
  globals : list (string * value);
  functions : list FunDef
}.

Definition answer (A : Type) : Type := (A + error) * list effect.

Fixpoint assoc {A} (x : string) (l : list (string * A)) : option A :=
  match l with
  | [] => None
  | (k, v) :: l' => if (k =? x)%string then Some v else assoc x l'
  end.

Fixpoint find_def (f : string) (ds : list FunDef) : option FunDef :=
  match ds with
  | [] => None
  | d :: ds' => if (fname d =? f)%string then Some d else find_def f ds'
  end.

(** Attributes of the two modules the fragment knows: the status constants
    and [time.sleep]. *)
Definition module_attr (m a : string) : option value :=
  if (m =? "status")%string then
    if (a =? "HTTP_200_OK")%string then Some (VInt status.HTTP_200_OK)
    else if (a =? "HTTP_204_NO_CONTENT")%string then Some (VInt status.HTTP_204_NO_CONTENT)
    else if (a =? "HTTP_404_NOT_FOUND")%string then Some (VInt status.HTTP_404_NOT_FOUND)
    else None
  else if (m =? "time")%string then
    if (a =? "sleep")%string then Some (VBuiltin "time.sleep") else None
  else None.

(** [Response] called with keyword arguments: [status_code] takes an integer, the other three
    parameters only their default [None]; anything else is a [TypeError]. *)
Fixpoint construct_Response (kwargs : list (string * value)) (status_code : Z)
    : value + error :=
  match kwargs with
  | [] => inl (VResponse (Responses.Response_init None status_code None None))
  | (k, v) :: kwargs' =>
      if (k =? "status_code")%string then
        match v with
        | VInt z => construct_Response kwargs' z
        | _ => inr (ErrType "status_code")
        end
      else if ((k =? "content") || (k =? "headers") || (k =? "media_type"))%string then
        match v with
        | VNone => construct_Response kwargs' status_code
        | _ => inr (ErrType k)
        end
      else inr (ErrType k)
  end.

Definition truthy (v : value) : bool :=
  match v with
  | VNone => false
  | VInt z => negb (z =? 0)
  | _ => true
  end.

(** Arguments are evaluated left to right; the first error stops the
    evaluation. *)
Definition eval_args (ev : expr -> option (answer value))
    : list expr -> option (answer (list value)) :=
  fix go (es : list expr) :=
    match es with
    | [] => Some (inl [], [])
    | e :: es' =>
        match ev e with
        | None => None
        | Some (inr err, t) => Some (inr err, t)
        | Some (inl v, t) =>
            match go es' with
            | None => None
            | Some (inr err, t') => Some (inr err, (t ++ t')%list)
            | Some (inl vs, t') => Some (inl (v :: vs), (t ++ t')%list)
            end
        end
    end.

Definition eval_kwargs (ev : expr -> option (answer value))
    : list (string * expr) -> option (answer (list (string * value))) :=
  fix go (kes : list (string * expr)) :=
    match kes with
    | [] => Some (inl [], [])
    | (k, e) :: kes' =>
        match ev e with
        | None => None
        | Some (inr err, t) => Some (inr err, t)
        | Some (inl v, t) =>
            match go kes' with
            | None => None
            | Some (inr err, t') => Some (inr err, (t ++ t')%list)
            | Some (inl kvs, t') => Some (inl ((k, v) :: kvs), (t ++ t')%list)
            end
        end
    end.

(** How a statement ends. *)
Inductive outcome : Type :=
| Normal
| Returned (v : value).

(** The evaluator.  Every expression and statement costs one unit of fuel,
    every turn of a loop and every call costs one more; [None] means the
    fuel ran out. *)
Fixpoint eval (p : Program) (fuel : nat) (e : expr) {struct fuel}
    : option (answer value) :=
  match fuel with
  | O => None
  | S n =>
      match e with
      | Const z => Some (inl (VInt z), [])
      | Name x =>
          Some (match assoc x (globals p) with
                | Some v => inl v
                | None => inr (ErrName x)
                end, [])
      | Attr e' a =>
          match eval p n e' with
          | None => None
          | Some (inr err, t) => Some (inr err, t)
          | Some (inl (VModule m), t) =>
              Some (match module_attr m a with
                    | Some v => inl v
                    | None => inr (ErrAttribute a)
                    end, t)
          | Some (inl _, t) => Some (inr (ErrAttribute a), t)
          end
      | Call f args kwargs =>
          match eval p n f with
          | None => None
          | Some (inr err, t) => Some (inr err, t)
          | Some (inl fv, t) =>
              match eval_args (eval p n) args with
              | None => None
              | Some (inr err, t1) => Some (inr err, (t ++ t1)%list)
              | Some (inl vs, t1) =>
                  match eval_kwargs (eval p n) kwargs with
                  | None => None
                  | Some (inr err, t2) => Some (inr err, (t ++ t1 ++ t2)%list)
                  | Some (inl kvs, t2) =>
                      match fv, vs with
                      | VClass "Response", [] =>
                          Some (construct_Response kvs status.HTTP_200_OK,
                                (t ++ t1 ++ t2)%list)
                      | VBuiltin "time.sleep", [VInt s] =>
                          Some (inl VNone, (t ++ t1 ++ t2 ++ [Slept s])%list)
                      | VFunction g, [] =>
                          match find_def g (functions p), kvs with
                          | Some (mkFunDef _ [] b), [] =>
                              match exec p n b with
                              | None => None
                              | Some (inr err, t3) =>
                                  Some (inr err, (t ++ t1 ++ t2 ++ t3)%list)
                              | Some (inl Normal, t3) =>
                                  Some (inl VNone, (t ++ t1 ++ t2 ++ t3)%list)
                              | Some (inl (Returned v), t3) =>
                                  Some (inl v, (t ++ t1 ++ t2 ++ t3)%list)
                              end
                          | _, _ => Some (inr (ErrType g), (t ++ t1 ++ t2)%list)
                          end
                      | _, _ => Some (inr (ErrType "call"), (t ++ t1 ++ t2)%list)
                      end
                  end
              end
          end
      end
  end

with exec (p : Program) (fuel : nat) (s : stmt) {struct fuel}
    : option (answer outcome) :=
  match fuel with
  | O => None
  | S n =>
      match s with
      | Pass => Some (inl Normal, [])
      | Expr e =>
          match eval p n e with
          | None => None
          | Some (inr err, t) => Some (inr err, t)
          | Some (inl _, t) => Some (inl Normal, t)
          end
      | Return e =>
          match eval p n e with
          | None => None
          | Some (inr err, t) => Some (inr err, t)
          | Some (inl v, t) => Some (inl (Returned v), t)
          end
      | Seq s1 s2 =>
          match exec p n s1 with
          | None => None
          | Some (inl Normal, t) =>
              match exec p n s2 with
              | None => None
              | Some (r, t') => Some (r, (t ++ t')%list)
              end
          | Some (r, t) => Some (r, t)
          end
      | While c b =>
          match eval p n c with
          | None => None
          | Some (inr err, t) => Some (inr err, t)
          | Some (inl v, t) =>
              if truthy v then
                match exec p n b with
                | None => None
                | Some (inl Normal, t') =>
                    match exec p n (While c b) with
                    | None => None
                    | Some (r, t'') => Some (r, (t ++ t' ++ t'')%list)
                    end
                | Some (r, t') => Some (r, (t ++ t')%list)
                end
              else Some (inl Normal, t)
          end
      end
  end.

(** [f()] for a function of the module. *)
Definition call_function (p : Program) (fuel : nat) (f : string)
    : option (answer value) :=
  eval p fuel (Call (Name f) [] []).

(** Syntax checks: does a statement contain a loop, and what does it
    call. *)
Fixpoint has_loop (s : stmt) : bool :=
  match s with
  | Pass | Expr _ | Return _ => false
  | Seq s1 s2 => has_loop s1 || has_loop s2
  | While _ _ => true
  end.

Fixpoint dotted (e : expr) : string :=
  match e with
  | Name x => x
  | Attr e' a => dotted e' ++ "." ++ a
  | _ => "?"
  end.

Fixpoint callees_expr (e : expr) : list string :=
  match e with
  | Const _ | Name _ => []
  | Attr e' _ => callees_expr e'
  | Call f args kwargs =>
      (dotted f :: callees_expr f
         ++ flat_map callees_expr args
         ++ flat_map (fun ke => match ke with (_, e') => callees_expr e' end) kwargs)%list
  end.

Fixpoint callees (s : stmt) : list string :=
  match s with
  | Pass => []
  | Expr e | Return e => callees_expr e
  | Seq s1 s2 => (callees s1 ++ callees s2)%list
  | While c b => (callees_expr c ++ callees b)%list
  end.

(** *** [main.py] in this syntax *)

(** [return Response(status_code=status.HTTP_204_NO_CONTENT)]. *)
Definition read_root_body : stmt :=
  Return (Call (Name "Response") []
            [("status_code", Attr (Name "status") "HTTP_204_NO_CONTENT")]).

(** [def read_root(): ...]. *)
Definition read_root_def : FunDef := mkFunDef "read_root" [] read_root_body.

(** The module once lines 1 to 7 have run: the three imported names and
    the function. *)
Definition main_py : Program :=
  mkProgram
    [ ("FastAPI", VClass "FastAPI"); ("Response", VClass "Response");
      ("status", VModule "status"); ("read_root", VFunction "read_root") ]
    [ read_root_def ].

(** *** Three handlers [main.py] does not have, for contrast *)

(** [def spin(): while 1: pass]. *)
Definition spin_def : FunDef := mkFunDef "spin" [] (While (Const 1) Pass).

(** [def again(): return again()]. *)
Definition again_def : FunDef :=
  mkFunDef "again" [] (Return (Call (Name "again") [] [])).

(** [def slow(): time.sleep(1); return Response(status_code=204)]. *)
Definition slow_def : FunDef :=
  mkFunDef "slow" []
    (Seq (Expr (Call (Attr (Name "time") "sleep") [Const 1] []))
         (Return (Call (Name "Response") [] [("status_code", Const 204)]))).

Definition contrast : Program :=
  mkProgram
    [ ("Response", VClass "Response"); ("status", VModule "status");
      ("time", VModule "time"); ("spin", VFunction "spin");
      ("again", VFunction "again"); ("slow", VFunction "slow") ]
    [ spin_def; again_def; slow_def ].

End Py.

(** * Properties *)

Ltac unfold_m :=
  unfold bind, ret, raise, catch, get_app, set_app, emit in *.

(** ** The handler on its own *)

Lemma read_root_run (w : World) : read_root w = (Ok no_content, w).
Proof. reflexivity. Qed.

(** ** Routing on the loaded table *)

Section Dispatch.

Context {FT : FrameworkText}.

Lemma loaded_routes :
  routes loaded_app =
  [ mkRoute "/openapi.json" ["GET"; "HEAD"] EP_openapi;
    mkRoute "/docs" ["GET"; "HEAD"] EP_swagger_ui_html;
    mkRoute "/docs/oauth2-redirect" ["GET"; "HEAD"] EP_swagger_ui_redirect;
    mkRoute "/redoc" ["GET"; "HEAD"] EP_redoc_html;
    root_route ].
Proof. reflexivity. Qed.

(** A [GET /] reaches the program's route past the four framework
    routes. *)
Lemma scan_get_root (req : Request) :
  is_get_root req ->
  Routing.scan_routes (routes loaded_app) req None = inl root_route.
Proof.
  intros [Hm Hp]. rewrite loaded_routes.
  unfold Routing.scan_routes, Routing.matches, root_route; simpl path; simpl methods.
  rewrite Hp, Hm. reflexivity.
Qed.

Lemma FastAPI_call_get_root (req : Request) (w : World) :
  serving w -> is_get_root req ->
  FastAPI_call req w = (Ok no_content, w).
Proof.
  intros (a & Ha & Hr) Hreq.
  unfold FastAPI_call, Router_app; unfold_m.
  rewrite Ha, Hr, (scan_get_root req Hreq).
  unfold Route_handle, root_route; simpl methods; simpl endpoint.
  destruct Hreq as [Hm _]. rewrite Hm. reflexivity.
Qed.

End Dispatch.

(** C1. Every request with method GET and path [/], handled by the loaded
    application in any state, is answered by [read_root] with status 204
    and an empty body; the handler itself returns that response from any
    state. *)
Theorem C1_get_root_204_empty `{FrameworkText} (req : Request) (w : World) :
  serving w -> is_get_root req ->
  exists resp,
    read_root w = (Ok resp, w) /\
    FastAPI_call req w = (Ok resp, w) /\
    status_code resp = status.HTTP_204_NO_CONTENT /\
    body resp = "" /\ String.length (body resp) = 0%nat.
Proof.
  intros Hw Hreq. exists no_content.
  split; [apply read_root_run |].
  split; [apply FastAPI_call_get_root; assumption |].
  repeat split.
Qed.

Lemma C1_witness :
  exists resp,
    read_root Sample.warm = (Ok resp, Sample.warm) /\
    FastAPI_call (FT := Sample.text) Sample.busy_get_root Sample.warm
      = (Ok resp, Sample.warm) /\
    status_code resp = 204 /\ body resp = "" /\ String.length (body resp) = 0%nat.
Proof.
  apply (C1_get_root_204_empty (H := Sample.text) Sample.busy_get_root Sample.warm).
  - exists (mkFastAPI (routes loaded_app) (Some "{}")). split; reflexivity.
  - split; reflexivity.
Defined.

(** ** What handling a request can and cannot touch *)

Lemma frame_refl (w : World) : frame w w.
Proof. split; [reflexivity | intros a Ha; exists a; auto]. Qed.

Lemma frame_trans (w1 w2 w3 : World) :
  frame w1 w2 -> frame w2 w3 -> frame w1 w3.
Proof.
  intros [E1 A1] [E2 A2]. split; [congruence |].
  intros a Ha. destruct (A1 a Ha) as (a' & Ha' & R1).
  destruct (A2 a' Ha') as (a'' & Ha'' & R2).
  exists a''. split; [assumption | congruence].
Qed.

Lemma frame_serving (w w' : World) : frame w w' -> serving w -> serving w'.
Proof.
  intros [_ A] (a & Ha & Hr). destruct (A a Ha) as (a' & Ha' & R).
  exists a'. split; [assumption | congruence].
Qed.

Section Scan.

Import Routing.

Lemma scan_routes_inl (rs : list Route) (req : Request) :
  forall partial r,
    scan_routes rs req partial = inl r ->
    In r rs /\ matches r req = FULL.
Proof.
  induction rs as [| r0 rs IH]; intros partial r; simpl.
  - discriminate.
  - destruct (matches r0 req) eqn:Hm.
    + intros Hs. destruct (IH _ _ Hs). auto.
    + intros Hs. destruct (IH _ _ Hs). auto.
    + intros Hs. injection Hs as <-. auto.
Qed.

Lemma scan_routes_inr_some (rs : list Route) (req : Request) :
  forall partial r,
    scan_routes rs req partial = inr (Some r) ->
    partial = Some r \/ (In r rs /\ matches r req = PARTIAL).
Proof.
  induction rs as [| r0 rs IH]; intros partial r; simpl.
  - intros Hs. injection Hs as ->. auto.
  - destruct (matches r0 req) eqn:Hm.
    + intros Hs. destruct (IH _ _ Hs) as [-> | [Hin Hp]]; auto.
    + intros Hs. destruct (IH _ _ Hs) as [Hp | [Hin Hp]]; [| auto].
      destruct partial as [p |]; [left; assumption |].
      injection Hp as <-. auto.
    + discriminate.
Qed.

Lemma scan_routes_inr_none (rs : list Route) (req : Request) :
  forall partial,
    scan_routes rs req partial = inr None ->
    forall r, In r rs -> matches r req = NONE.
Proof.
  induction rs as [| r0 rs IH]; intros partial; simpl.
  - intros _ r [].
  - destruct (matches r0 req) eqn:Hm.
    + intros Hs r [<- | Hin]; [assumption | eauto].
    + intros Hs. exfalso.
      assert (Hq : exists q, scan_routes rs req (Some q) = inr None)
        by (destruct partial; eauto).
      destruct Hq as [q Hq]. clear Hs IH.
      revert q Hq. induction rs as [| r1 rs IH']; simpl; intros q Hq.
      * discriminate.
      * destruct (matches r1 req); eauto; discriminate.
    + discriminate.
Qed.

Lemma scan_routes_all_none (rs : list Route) (req : Request) :
  forall partial,
    (forall r, In r rs -> matches r req = NONE) ->
    scan_routes rs req partial = inr partial.
Proof.
  induction rs as [| r0 rs IH]; intros partial Hall; simpl.
  - reflexivity.
  - rewrite (Hall r0) by (left; reflexivity).
    apply IH. intros r Hin. apply Hall. right. assumption.
Qed.

Lemma existsb_all_none (rs : list Route) (req : Request) :
  (forall r, In r rs -> matches r req = NONE) ->
  existsb (fun r => negb (is_NONE (matches r req))) rs = false.
Proof.
  induction rs as [| r0 rs IH]; intros Hall; simpl.
  - reflexivity.
  - rewrite (Hall r0) by (left; reflexivity). simpl.
    apply IH. intros r Hin. apply Hall. right. assumption.
Qed.

End Scan.

Section Handling.

Context {FT : FrameworkText}.

(** An endpoint of a bound application returns a response; the only thing
    it may write is the cached schema; only [read_root] answers 204. *)
Lemma call_endpoint_spec (e : Endpoint) (req : Request) (w : World) (a : FastAPI) :
  app w = Some a ->
  exists resp w',
    call_endpoint e req w = (Ok resp, w') /\ frame w w' /\
    (e = EP_read_root -> resp = no_content /\ w' = w) /\
    (e <> EP_read_root -> status_code resp = status.HTTP_200_OK).
Proof.
  intros Ha. destruct e; simpl.
  - exists no_content, w. rewrite read_root_run.
    split; [reflexivity |]. split; [apply frame_refl |].
    split; [auto | congruence].
  - unfold FastAPI_openapi; unfold_m. rewrite Ha.
    destruct (openapi_schema a) as [s |]; simpl.
    + eexists; exists w.
      split; [reflexivity |]. split; [apply frame_refl |].
      split; [discriminate | reflexivity].
    + eexists; eexists. split; [reflexivity |].
      split; [| split; [discriminate | reflexivity]].
      split; [reflexivity |]. simpl.
      intros a0 Ha0. eexists. split; [reflexivity |]. simpl. congruence.
  - eexists; exists w. unfold_m.
    split; [reflexivity |]. split; [apply frame_refl |].
    split; [discriminate | reflexivity].
  - eexists; exists w. unfold_m.
    split; [reflexivity |]. split; [apply frame_refl |].
    split; [discriminate | reflexivity].
  - eexists; exists w. unfold_m.
    split; [reflexivity |]. split; [apply frame_refl |].
    split; [discriminate | reflexivity].
Qed.

Lemma Route_handle_full (r : Route) (req : Request) :
  Routing.matches r req = FULL ->
  Route_handle r req = call_endpoint (endpoint r) req.
Proof.
  unfold Routing.matches, Route_handle.
  destruct (Routing.path_regex_match _ _); [| discriminate].
  destruct (methods r) as [| m ms]; [reflexivity |].
  destruct (PyStr.mem _ _); [reflexivity | discriminate].
Qed.

Lemma Route_handle_partial (r : Route) (req : Request) :
  Routing.matches r req = PARTIAL ->
  Route_handle r req =
  raise (HTTPException status.HTTP_405_METHOD_NOT_ALLOWED "Method Not Allowed"
           (Some [("Allow", PyStr.join ", " (methods r))])).
Proof.
  unfold Routing.matches, Route_handle.
  destruct (Routing.path_regex_match _ _); [| discriminate].
  destruct (methods r) as [| m ms]; [discriminate |].
  destruct (PyStr.mem _ _); [discriminate | reflexivity].
Qed.

Lemma Router_app_routed (req : Request) (w : World) (a : FastAPI) :
  app w = Some a -> Routed a req w (Router_app req w).
Proof.
  intros Ha. unfold Router_app; unfold_m. rewrite Ha.
  destruct (Routing.scan_routes (routes a) req None) as [r | [r |]] eqn:Hs.
  - destruct (scan_routes_inl _ _ _ _ Hs) as [Hin Hm].
    rewrite (Route_handle_full _ _ Hm). apply Routed_full; assumption.
  - destruct (scan_routes_inr_some _ _ _ _ Hs) as [Hp | [Hin Hm]];
      [discriminate |].
    rewrite (Route_handle_partial _ _ Hm). apply Routed_partial; assumption.
  - pose proof (scan_routes_inr_none _ _ _ Hs) as Hnone.
    destruct (req_path req =? "/")%string eqn:Hp; simpl.
    + apply Routed_not_found; assumption.
    + destruct (existsb _ (routes a)).
      * apply Routed_redirect; [assumption |].
        apply String.eqb_neq. assumption.
      * apply Routed_not_found; assumption.
Qed.

(** The application always answers; what it answers with 204 came from a
    route to [read_root] that matched in full. *)
Lemma FastAPI_call_spec (req : Request) (w : World) (a : FastAPI) :
  app w = Some a ->
  exists resp w',
    FastAPI_call req w = (Ok resp, w') /\ frame w w' /\
    (status_code resp = status.HTTP_204_NO_CONTENT ->
     exists r, In r (routes a) /\ Routing.matches r req = FULL /\
               endpoint r = EP_read_root).
Proof.
  intros Ha. unfold FastAPI_call, catch.
  destruct (Router_app_routed req w a Ha) as [r Hin Hm | r Hin Hm | Hn Hp | Hn].
  - destruct (call_endpoint_spec (endpoint r) req w a Ha)
      as (resp & w' & Hc & Hf & Hroot & Hother).
    rewrite Hc. exists resp, w'. repeat split; try apply Hf.
    intros H204. exists r. repeat split; try assumption.
    destruct (endpoint r) eqn:He; try reflexivity;
      rewrite Hother in H204 by discriminate; discriminate.
  - eexists; exists w. split; [reflexivity |].
    split; [apply frame_refl | discriminate].
  - eexists; exists w. split; [reflexivity |].
    split; [apply frame_refl | discriminate].
  - eexists; exists w. split; [reflexivity |].
    split; [apply frame_refl | discriminate].
Qed.

End Handling.

Section Serving.

Context {FT : FrameworkText}.

Lemma read_root_route_unique (r : Route) :
  In r (routes loaded_app) -> endpoint r = EP_read_root -> r = root_route.
Proof.
  rewrite loaded_routes. simpl.
  intros [<- | [<- | [<- | [<- | [<- | []]]]]]; simpl; intros He;
    try discriminate; reflexivity.
Qed.

Lemma root_route_full (req : Request) :
  Routing.matches root_route req = FULL ->
  req_method req = "GET" /\
  (req_path req = "/" \/ req_path req = "/" ++ PyStr.LF).
Proof.
  unfold Routing.matches, Routing.path_regex_match, root_route.
  simpl path; simpl methods. unfold PyStr.mem; simpl existsb.
  destruct (_ || _) eqn:Hp; [| discriminate].
  destruct (req_method req =? "GET")%string eqn:Hm; simpl; [| discriminate].
  intros _. split; [apply String.eqb_eq; assumption |].
  apply Bool.orb_true_iff in Hp.
  destruct Hp as [Hp | Hp]; apply String.eqb_eq in Hp; auto.
Qed.

(** Any other method on the root path is refused with 405. *)
Lemma FastAPI_call_root_405 (req : Request) (w : World) :
  serving w ->
  req_path req = "/" \/ req_path req = "/" ++ PyStr.LF ->
  req_method req <> "GET" ->
  FastAPI_call req w =
  (Ok (http_exception_handler status.HTTP_405_METHOD_NOT_ALLOWED
         "Method Not Allowed" (Some [("Allow", "GET")])), w).
Proof.
  intros (a & Ha & Hr) Hp Hm.
  apply String.eqb_neq in Hm.
  unfold FastAPI_call, Router_app; unfold_m. rewrite Ha, Hr, loaded_routes.
  unfold Routing.scan_routes, Routing.matches, Routing.path_regex_match, root_route;
    simpl path; simpl methods.
  destruct Hp as [Hp | Hp]; rewrite Hp; simpl;
    rewrite Hm; simpl; unfold Route_handle; simpl; rewrite Hm; reflexivity.
Qed.

(** A path that no route answers to is not found. *)
Lemma FastAPI_call_undefined_404 (req : Request) (w : World) (a : FastAPI) :
  app w = Some a ->
  undefined_path (routes a) req ->
  FastAPI_call req w =
  (Ok (http_exception_handler status.HTTP_404_NOT_FOUND "Not Found" None), w).
Proof.
  intros Ha Hu.
  unfold FastAPI_call, Router_app; unfold_m. rewrite Ha.
  rewrite scan_routes_all_none by (intros r Hin; apply (Hu r Hin)).
  rewrite existsb_all_none by (intros r Hin; apply (Hu r Hin)).
  rewrite Bool.andb_false_r. reflexivity.
Qed.

(** The accept loop answers every request, sends one response per request
    and leaves the routing table alone. *)
Lemma serve_spec (reqs : list Request) :
  forall (w : World) (a : FastAPI),
    app w = Some a ->
    exists sent a',
      serve reqs w = (Ok tt, mkWorld (Some a') (events w ++ map Sent sent)) /\
      routes a' = routes a /\ length sent = length reqs.
Proof.
  induction reqs as [| req reqs IH]; intros w a Ha; simpl.
  - exists [], a. unfold_m. simpl. rewrite app_nil_r, <- Ha.
    destruct w; auto.
  - destruct (FastAPI_call_spec req w a Ha) as (resp & w1 & Hc & [He Hf] & _).
    destruct (Hf a Ha) as (a1 & Ha1 & Hr1).
    unfold bind at 1. unfold catch. rewrite Hc.
    unfold bind at 1. unfold emit at 1.
    destruct (IH (mkWorld (app w1) (events w1 ++ [Sent resp])) a1 Ha1)
      as (sent & a' & Hs & Hr & Hl).
    rewrite Hs. exists (resp :: sent), a'. simpl.
    rewrite He, <- app_assoc. simpl.
    repeat split; congruence.
Qed.

(** Served nothing but [GET /], the loop sends the same response each time
    and the world is otherwise as before. *)
Lemma serve_get_root (reqs : list Request) :
  forall w : World,
    serving w -> Forall is_get_root reqs ->
    serve reqs w =
    (Ok tt, mkWorld (app w) (events w ++ repeat (Sent no_content) (length reqs))).
Proof.
  induction reqs as [| req reqs IH]; intros w Hw Hall; simpl.
  - unfold_m. rewrite app_nil_r. destruct w; reflexivity.
  - inversion Hall as [| ? ? Hreq Hrest]; subst.
    unfold bind at 1. unfold catch. rewrite (FastAPI_call_get_root req w Hw Hreq).
    unfold bind at 1. unfold emit at 1.
    rewrite IH; [| destruct Hw as (a & Ha & Hr); exists a; auto | assumption].
    simpl. rewrite <- app_assoc. reflexivity.
Qed.

(** The module body, up to the guard. *)
Lemma main_unfold (name : string) (env : Env) :
  main name env fresh =
  (if (name =? "__main__")%string
   then uvicorn_run env "0.0.0.0" 8000
   else ret tt) (mkWorld (Some loaded_app) []).
Proof. reflexivity. Qed.

Lemma main_as_main (env : Env) :
  main "__main__" env fresh =
  uvicorn_run env "0.0.0.0" 8000 (mkWorld (Some loaded_app) []).
Proof. reflexivity. Qed.

Lemma main_as_library (name : string) (env : Env) :
  name <> "__main__" ->
  main name env fresh = (Ok tt, mkWorld (Some loaded_app) []).
Proof.
  intros Hn. rewrite main_unfold.
  apply String.eqb_neq in Hn. rewrite Hn. reflexivity.
Qed.

Lemma uvicorn_run_refused (env : Env) (host : string) (port : Z) (w : World) :
  can_bind env host port = false ->
  uvicorn_run env host port w =
  (Raise (SystemExit 1), mkWorld (app w) (events w ++ [Bind host port])).
Proof.
  intros Hb. unfold uvicorn_run; unfold_m. rewrite Hb. reflexivity.
Qed.

Lemma uvicorn_run_bound (env : Env) (host : string) (port : Z) (w : World) (a : FastAPI) :
  app w = Some a ->
  can_bind env host port = true ->
  exists sent a',
    uvicorn_run env host port w =
    (Ok tt, mkWorld (Some a')
              (events w ++ Bind host port :: Started :: map Sent sent ++ [Stopped])) /\
    routes a' = routes a /\ length sent = length (incoming env).
Proof.
  intros Ha Hb. unfold uvicorn_run.
  unfold bind at 1. unfold emit at 1. rewrite Hb.
  unfold bind at 1. unfold emit at 1. simpl app.
  unfold bind at 1.
  destruct (serve_spec (incoming env)
              (mkWorld (app w) ((events w ++ [Bind host port]) ++ [Started])) a Ha)
    as (sent & a' & Hs & Hr & Hl).
  simpl events in *. rewrite Hs. exists sent, a'.
  unfold emit. simpl. repeat rewrite <- app_assoc. simpl. auto.
Qed.

End Serving.

Lemma binds_app (l1 l2 : list Event) : binds (l1 ++ l2) = (binds l1 ++ binds l2)%list.
Proof.
  induction l1 as [| e l1 IH]; simpl; [reflexivity |].
  destruct e; simpl; rewrite IH; reflexivity.
Qed.

Lemma binds_sent (sent : list Response) : binds (map Sent sent) = [].
Proof. induction sent; simpl; auto. Qed.

(** C2. Two requests for [GET /] get the same response, whatever their
    query strings, headers and bodies, and whatever state the loaded
    application is in when each arrives. *)
Theorem C2_get_root_input_invariant `{FrameworkText}
    (req1 req2 : Request) (w1 w2 : World) :
  serving w1 -> serving w2 -> is_get_root req1 -> is_get_root req2 ->
  fst (FastAPI_call req1 w1) = fst (FastAPI_call req2 w2) /\
  fst (FastAPI_call req1 w1) = Ok no_content.
Proof.
  intros Hw1 Hw2 Hr1 Hr2.
  rewrite (FastAPI_call_get_root req1 w1 Hw1 Hr1).
  rewrite (FastAPI_call_get_root req2 w2 Hw2 Hr2).
  split; reflexivity.
Qed.

Lemma C2_witness :
  fst (FastAPI_call (FT := Sample.text) Sample.busy_get_root Sample.warm) =
  fst (FastAPI_call (FT := Sample.text) (Sample.request "GET" "/") Sample.loaded) /\
  fst (FastAPI_call (FT := Sample.text) Sample.busy_get_root Sample.warm) = Ok no_content.
Proof.
  apply (C2_get_root_input_invariant (H := Sample.text)).
  - exists (mkFastAPI (routes loaded_app) (Some "{}")). split; reflexivity.
  - exists loaded_app. split; reflexivity.
  - split; reflexivity.
  - split; reflexivity.
Defined.

(** C3, as the code has it.  A request that is not a GET for [/] or for
    [/] followed by one line feed never gets a 204 from the loaded
    application: another method on those two paths gets 405, a path no
    route answers to gets 404. *)
Theorem C3_other_requests_never_204 `{FrameworkText} (req : Request) (w : World) :
  serving w ->
  ~ (req_method req = "GET" /\
     (req_path req = "/" \/ req_path req = "/" ++ PyStr.LF)) ->
  exists resp w',
    FastAPI_call req w = (Ok resp, w') /\
    status_code resp <> status.HTTP_204_NO_CONTENT /\
    (req_path req = "/" \/ req_path req = "/" ++ PyStr.LF ->
     status_code resp = status.HTTP_405_METHOD_NOT_ALLOWED) /\
    (undefined_path (routes loaded_app) req ->
     status_code resp = status.HTTP_404_NOT_FOUND).
Proof.
  intros Hw Hnot. pose proof Hw as (a & Ha & Hr).
  destruct (FastAPI_call_spec req w a Ha) as (resp & w' & Hc & _ & H204).
  exists resp, w'. split; [assumption |]. split; [| split].
  - intros Hs. destruct (H204 Hs) as (r & Hin & Hm & He).
    rewrite Hr in Hin. rewrite (read_root_route_unique r Hin He) in Hm.
    apply Hnot. apply root_route_full. assumption.
  - intros Hp.
    assert (Hm : req_method req <> "GET") by (intros Hm; apply Hnot; auto).
    rewrite (FastAPI_call_root_405 req w Hw Hp Hm) in Hc.
    injection Hc as <- _. reflexivity.
  - intros Hu. rewrite <- Hr in Hu.
    rewrite (FastAPI_call_undefined_404 req w a Ha Hu) in Hc.
    injection Hc as <- _. reflexivity.
Qed.

Lemma C3_witness :
  exists resp w',
    FastAPI_call (FT := Sample.text) (Sample.request "POST" "/") Sample.loaded
      = (Ok resp, w') /\
    status_code resp <> 204 /\
    ("/" = "/" \/ "/" = "/" ++ PyStr.LF -> status_code resp = 405) /\
    (undefined_path (routes loaded_app) (Sample.request "POST" "/") ->
     status_code resp = 404).
Proof.
  apply (C3_other_requests_never_204 (H := Sample.text)
           (Sample.request "POST" "/") Sample.loaded).
  - exists loaded_app. split; reflexivity.
  - simpl. intros [Hm _]. discriminate Hm.
Defined.

(** C3, as the specification words it, fails: a GET whose path is [/]
    followed by a line feed (sent as [/%0A]) is not a request for [/], yet
    the route for [/] takes it and [read_root] answers 204. *)
Lemma C3_counterexample :
  let req := Sample.request "GET" ("/" ++ PyStr.LF) in
  ~ is_get_root req /\
  FastAPI_call (FT := Sample.text) req Sample.loaded = (Ok no_content, Sample.loaded) /\
  status_code no_content = status.HTTP_204_NO_CONTENT.
Proof.
  simpl. split; [| split; reflexivity].
  intros [_ Hp]. discriminate Hp.
Qed.

(** The two examples the specification names. *)
Example post_root_is_405 :
  fst (FastAPI_call (FT := Sample.text) (Sample.request "POST" "/") Sample.loaded) =
  Ok (mkResponse 405
        ("{" ++ PyStr.DQ ++ "detail" ++ PyStr.DQ ++ ":"
             ++ PyStr.DQ ++ "Method Not Allowed" ++ PyStr.DQ ++ "}")
        [("allow", "GET"); ("content-length", "31");
         ("content-type", "application/json")]).
Proof. reflexivity. Qed.

Example get_nonexistent_is_404 :
  undefined_path (routes loaded_app) (Sample.request "GET" "/nonexistent") /\
  fst (FastAPI_call (FT := Sample.text) (Sample.request "GET" "/nonexistent")
         Sample.loaded) =
  Ok (mkResponse 404
        ("{" ++ PyStr.DQ ++ "detail" ++ PyStr.DQ ++ ":"
             ++ PyStr.DQ ++ "Not Found" ++ PyStr.DQ ++ "}")
        [("content-length", "22"); ("content-type", "application/json")]).
Proof.
  split; [| reflexivity].
  intros r Hin. rewrite loaded_routes in Hin. simpl in Hin.
  destruct Hin as [<- | [<- | [<- | [<- | [<- | []]]]]]; split; reflexivity.
Qed.

(** C4. [read_root] leaves the process state exactly as it found it and
    returns the same response from every state; a run of any number of
    [GET /] requests sends that many identical 204 responses and leaves the
    application object untouched. *)
Theorem C4_read_root_no_side_effect `{FrameworkText} (w : World) (reqs : list Request) :
  serving w -> Forall is_get_root reqs ->
  read_root w = (Ok no_content, w) /\
  (forall w0 : World, fst (read_root w0) = fst (read_root w)) /\
  serve reqs w =
  (Ok tt, mkWorld (app w) (events w ++ repeat (Sent no_content) (length reqs))).
Proof.
  intros Hw Hall. split; [apply read_root_run |].
  split; [intros w0; reflexivity |].
  apply serve_get_root; assumption.
Qed.

Lemma C4_witness :
  read_root Sample.warm = (Ok no_content, Sample.warm) /\
  (forall w0 : World, fst (read_root w0) = fst (read_root Sample.warm)) /\
  serve (FT := Sample.text) (repeat Sample.busy_get_root 100) Sample.warm =
  (Ok tt,
   mkWorld (app Sample.warm)
     (events Sample.warm ++
      repeat (Sent no_content) (length (repeat Sample.busy_get_root 100)))).
Proof.
  apply (C4_read_root_no_side_effect (H := Sample.text)).
  - exists (mkFastAPI (routes loaded_app) (Some "{}")). split; reflexivity.
  - apply Forall_forall. intros req Hin.
    apply repeat_spec in Hin. subst req. split; reflexivity.
Defined.

(** C5. Run as the main program, the process tries to bind exactly one
    address, host [0.0.0.0] and port 8000, in every environment; a run
    does not depend on the environment variables or on the command line. *)
Theorem C5_binds_fixed_address `{FrameworkText}
    (environ1 environ2 : list (string * string)) (argv1 argv2 : list string)
    (ok : string -> Z -> bool) (reqs : list Request) :
  binds (events (snd (run_module "__main__" (mkEnv environ1 argv1 ok reqs)))) =
    [("0.0.0.0", 8000)] /\
  run_module "__main__" (mkEnv environ1 argv1 ok reqs) =
  run_module "__main__" (mkEnv environ2 argv2 ok reqs).
Proof.
  split; [| reflexivity].
  unfold run_module. rewrite main_as_main.
  destruct (ok "0.0.0.0" 8000) eqn:Hb.
  - destruct (uvicorn_run_bound (mkEnv environ1 argv1 ok reqs) "0.0.0.0" 8000
                (mkWorld (Some loaded_app) []) loaded_app eq_refl Hb)
      as (sent & a' & Hrun & _ & _).
    rewrite Hrun. simpl. rewrite binds_app, binds_sent. reflexivity.
  - rewrite uvicorn_run_refused by exact Hb. reflexivity.
Qed.

(** C6. The response [read_root] builds is [Response] given a status code
    and nothing else, it has no header at all, and that is the response a
    [GET /] receives from the application. *)
Theorem C6_no_custom_headers `{FrameworkText} (req : Request) (w : World) :
  serving w -> is_get_root req ->
  exists resp,
    read_root w = (Ok resp, w) /\
    resp = Responses.Response_init None status.HTTP_204_NO_CONTENT None None /\
    raw_headers resp = [] /\
    FastAPI_call req w = (Ok resp, w).
Proof.
  intros Hw Hreq. exists no_content.
  split; [apply read_root_run |].
  split; [reflexivity |]. split; [reflexivity |].
  apply FastAPI_call_get_root; assumption.
Qed.

Lemma C6_witness :
  exists resp,
    read_root Sample.loaded = (Ok resp, Sample.loaded) /\
    resp = Responses.Response_init None status.HTTP_204_NO_CONTENT None None /\
    raw_headers resp = [] /\
    FastAPI_call (FT := Sample.text) Sample.busy_get_root Sample.loaded
      = (Ok resp, Sample.loaded).
Proof.
  apply (C6_no_custom_headers (H := Sample.text) Sample.busy_get_root Sample.loaded).
  - exists loaded_app. split; reflexivity.
  - split; reflexivity.
Defined.

(** The evaluator does not return by construction: a loop that never
    ends and a function that calls itself exhaust every amount of fuel, and
    a handler that sleeps is seen to. *)
Lemma spin_loop (n : nat) :
  Py.exec Py.contrast n (Py.While (Py.Const 1) Py.Pass) = None.
Proof.
  induction n as [| n IH]; [reflexivity |].
  destruct n as [| n]; [reflexivity |].
  simpl in *. rewrite IH. reflexivity.
Qed.

Lemma spin_never_returns (fuel : nat) :
  Py.call_function Py.contrast fuel "spin" = None.
Proof.
  unfold Py.call_function.
  destruct fuel as [| [| n]]; try reflexivity.
  pose proof (spin_loop (S n)) as Hl.
  simpl in *. rewrite Hl. reflexivity.
Qed.

Lemma again_never_returns (fuel : nat) :
  Py.call_function Py.contrast fuel "again" = None.
Proof.
  unfold Py.call_function.
  induction fuel as [fuel IH] using (well_founded_induction lt_wf).
  destruct fuel as [| [| [| n]]]; try reflexivity.
  pose proof (IH (S n)) as Hn.
  simpl in *. rewrite Hn by lia. reflexivity.
Qed.

Lemma slow_blocks :
  Py.call_function Py.contrast 6 "slow" =
  Some (inl (Py.VResponse no_content), [Py.Slept 1]).
Proof. reflexivity. Qed.

(** C7. The body of [read_root], as written, has no loop and calls the
    [Response] constructor and nothing else (not itself, nothing that
    waits); called in the loaded module it returns the 204 response after
    a fixed number of evaluation steps, five units of fuel being enough
    whatever more is given, without an error and without having waited on
    anything; and that is the response [read_root] returns from every
    process state, which it leaves as it was. *)
Theorem C7_read_root_terminates (fuel : nat) (w : World) :
  (5 <= fuel)%nat ->
  Py.call_function Py.main_py fuel "read_root" =
    Some (inl (Py.VResponse no_content), []) /\
  read_root w = (Ok no_content, w) /\
  Py.has_loop Py.read_root_body = false /\
  Py.callees Py.read_root_body = ["Response"].
Proof.
  intros Hf.
  do 5 (destruct fuel as [| fuel]; [lia |]).
  repeat split.
Qed.

Lemma C7_witness :
  Py.call_function Py.main_py 5 "read_root" =
    Some (inl (Py.VResponse no_content), []) /\
  read_root Sample.warm = (Ok no_content, Sample.warm) /\
  Py.has_loop Py.read_root_body = false /\
  Py.callees Py.read_root_body = ["Response"].
Proof.
  apply (C7_read_root_terminates 5 Sample.warm).
  apply le_n.
Defined.

(** C8. When the address cannot be bound, the module ends with the
    exception [uvicorn.run] raised, untouched by the program; the process
    made one attempt to bind, never started serving, and exits with
    status 1. *)
Theorem C8_bind_failure_exits_nonzero `{FrameworkText} (env : Env) :
  can_bind env "0.0.0.0" 8000 = false ->
  main "__main__" env fresh =
    uvicorn_run env "0.0.0.0" 8000 (mkWorld (Some loaded_app) []) /\
  fst (main "__main__" env fresh) = Raise (SystemExit 1) /\
  events (snd (run_module "__main__" env)) = [Bind "0.0.0.0" 8000] /\
  fst (run_module "__main__" env) = 1 /\
  fst (run_module "__main__" env) <> 0.
Proof.
  intros Hb. split; [reflexivity |].
  unfold run_module. rewrite main_as_main.
  rewrite uvicorn_run_refused by exact Hb.
  simpl. repeat split. discriminate.
Qed.

Lemma C8_witness :
  main (FT := Sample.text) "__main__" (Sample.env false [Sample.busy_get_root]) fresh =
    uvicorn_run (FT := Sample.text) (Sample.env false [Sample.busy_get_root])
      "0.0.0.0" 8000 (mkWorld (Some loaded_app) []) /\
  fst (main (FT := Sample.text) "__main__" (Sample.env false [Sample.busy_get_root]) fresh)
    = Raise (SystemExit 1) /\
  events (snd (run_module (FT := Sample.text) "__main__"
                 (Sample.env false [Sample.busy_get_root])))
    = [Bind "0.0.0.0" 8000] /\
  fst (run_module (FT := Sample.text) "__main__"
         (Sample.env false [Sample.busy_get_root])) = 1 /\
  fst (run_module (FT := Sample.text) "__main__"
         (Sample.env false [Sample.busy_get_root])) <> 0.
Proof.
  apply (C8_bind_failure_exits_nonzero (H := Sample.text)
           (Sample.env false [Sample.busy_get_root])).
  reflexivity.
Defined.

Lemma run_module_serving `{FrameworkText} (name : string) (env : Env) :
  serving (snd (run_module name env)).
Proof.
  unfold run_module.
  destruct (String.eqb_spec name "__main__") as [-> | Hn].
  - rewrite main_as_main.
    destruct (can_bind env "0.0.0.0" 8000) eqn:Hb.
    + destruct (uvicorn_run_bound env "0.0.0.0" 8000
                  (mkWorld (Some loaded_app) []) loaded_app eq_refl Hb)
        as (sent & a' & Hrun & Hr & _).
      rewrite Hrun. exists a'. split; [reflexivity | assumption].
    + rewrite uvicorn_run_refused by exact Hb.
      exists loaded_app. split; reflexivity.
  - rewrite (main_as_library name env Hn).
    exists loaded_app. split; reflexivity.
Qed.

(** C9, as the code has it.  However the module is run, the application
    object ends with the four routes the framework's constructor installs
    followed by the one route the program registers, [/] for GET; that is
    the only route to [read_root]; and no request, and no run of requests,
    changes the routing table. *)
Theorem C9_routing_table_invariant `{FrameworkText}
    (name : string) (env : Env) (reqs : list Request) (req : Request) (w : World) :
  serving w ->
  (exists a, app (snd (run_module name env)) = Some a /\
             routes a = (routes FastAPI_new ++ [mkRoute "/" ["GET"] EP_read_root])%list) /\
  (forall r, In r (routes loaded_app) -> endpoint r = EP_read_root -> r = root_route) /\
  serving (snd (FastAPI_call req w)) /\
  serving (snd (serve reqs w)).
Proof.
  intros Hw. split; [| split; [| split]].
  - destruct (run_module_serving name env) as (a & Ha & Hr). eauto.
  - apply read_root_route_unique.
  - pose proof Hw as (a & Ha & Hr).
    destruct (FastAPI_call_spec req w a Ha) as (resp & w' & Hc & Hf & _).
    rewrite Hc. simpl. apply (frame_serving w w' Hf Hw).
  - pose proof Hw as (a & Ha & Hr).
    destruct (serve_spec reqs w a Ha) as (sent & a' & Hs & Hr' & _).
    rewrite Hs. exists a'. split; [reflexivity | congruence].
Qed.

Lemma C9_witness :
  (exists a,
     app (snd (run_module (FT := Sample.text) "__main__"
                 (Sample.env true [Sample.request "GET" "/openapi.json"]))) = Some a /\
     routes a = (routes FastAPI_new ++ [mkRoute "/" ["GET"] EP_read_root])%list) /\
  (forall r, In r (routes loaded_app) -> endpoint r = EP_read_root -> r = root_route) /\
  serving (snd (FastAPI_call (FT := Sample.text)
                  (Sample.request "GET" "/openapi.json") Sample.loaded)) /\
  serving (snd (serve (FT := Sample.text)
                  [Sample.request "GET" "/openapi.json"; Sample.busy_get_root]
                  Sample.loaded)).
Proof.
  apply (C9_routing_table_invariant (H := Sample.text)).
  exists loaded_app. split; reflexivity.
Defined.

(** C9, as the specification words it, fails: the routing table of the
    loaded application is not the single route [/]; it has five routes,
    and a GET for [/docs] is answered with 200 by one the program never
    registered. *)
Lemma C9_counterexample :
  exists a,
    app (snd (run_module (FT := Sample.text) "main" (Sample.env true []))) = Some a /\
    routes a <> [root_route] /\
    length (routes a) = 5%nat /\
    fst (FastAPI_call (FT := Sample.text) (Sample.request "GET" "/docs") Sample.loaded) =
    Ok (Responses.HTMLResponse "<html>swagger</html>") /\
    status_code (Responses.HTMLResponse "<html>swagger</html>") = status.HTTP_200_OK.
Proof.
  exists loaded_app. split; [reflexivity |].
  split; [discriminate |]. repeat split.
Qed.

(** C10. Loaded under any name but [__main__], the module binds [app],
    binds no socket, starts no server, emits no event at all, and ends
    normally. *)
Theorem C10_import_starts_nothing `{FrameworkText} (name : string) (env : Env) :
  name <> "__main__" ->
  run_module name env = (0, mkWorld (Some loaded_app) []) /\
  events (snd (run_module name env)) = [] /\
  binds (events (snd (run_module name env))) = [].
Proof.
  intros Hn. unfold run_module. rewrite (main_as_library name env Hn).
  repeat split.
Qed.

Lemma C10_witness :
  run_module (FT := Sample.text) "main" (Sample.env true [Sample.busy_get_root]) =
    (0, mkWorld (Some loaded_app) []) /\
  events (snd (run_module (FT := Sample.text) "main"
                 (Sample.env true [Sample.busy_get_root]))) = [] /\
  binds (events (snd (run_module (FT := Sample.text) "main"
                        (Sample.env true [Sample.busy_get_root])))) = [].
Proof.
  apply (C10_import_starts_nothing (H := Sample.text)).
  discriminate.
Defined.

(** ** Further properties of the module *)

Section Answers.

Context {FT : FrameworkText}.

(** Whatever the routing table, the application answers with one of five
    statuses and lets no exception out. *)
Lemma FastAPI_call_status (req : Request) (w : World) (a : FastAPI) :
  app w = Some a ->
  exists resp w',
    FastAPI_call req w = (Ok resp, w') /\ frame w w' /\
    In (status_code resp) answer_statuses.
Proof.
  intros Ha. unfold FastAPI_call, catch.
  destruct (Router_app_routed req w a Ha) as [r Hin Hm | r Hin Hm | Hn Hp | Hn].
  - destruct (call_endpoint_spec (endpoint r) req w a Ha)
      as (resp & w' & Hc & Hf & Hroot & Hother).
    rewrite Hc. exists resp, w'. split; [reflexivity |]. split; [assumption |].
    destruct (endpoint r) eqn:He;
      try (rewrite Hother by discriminate; simpl; auto).
    destruct (Hroot eq_refl) as [-> _]. simpl. auto.
  - eexists; exists w. split; [reflexivity |].
    split; [apply frame_refl | simpl; auto 6].
  - eexists; exists w. split; [reflexivity |].
    split; [apply frame_refl | simpl; auto].
  - eexists; exists w. split; [reflexivity |].
    split; [apply frame_refl | simpl; auto 6].
Qed.

End Answers.

Lemma matches_path (r : Route) (req : Request) :
  Routing.matches r req <> NONE ->
  req_path req = path r \/ req_path req = path r ++ PyStr.LF.
Proof.
  unfold Routing.matches, Routing.path_regex_match.
  destruct (_ || _) eqn:Hp; [| congruence].
  intros _. apply Bool.orb_true_iff in Hp.
  destruct Hp as [Hp | Hp]; apply String.eqb_eq in Hp; auto.
Qed.

(** X2. The loaded application answers every request, whatever its method
    and path: the answer has status 200, 204, 307, 404 or 405, no exception
    reaches the server (its 500 fallback is never used), nothing is emitted
    while the request is handled, and the application is still loaded
    afterwards. *)
Theorem X2_application_always_answers `{FrameworkText} (req : Request) (w : World) :
  serving w ->
  exists resp w',
    FastAPI_call req w = (Ok resp, w') /\
    catch (FastAPI_call req) (fun _ => ret send_500_response) w = (Ok resp, w') /\
    In (status_code resp) answer_statuses /\
    events w' = events w /\
    serving w'.
Proof.
  intros Hw. pose proof Hw as (a & Ha & Hr).
  destruct (FastAPI_call_status req w a Ha) as (resp & w' & Hc & Hf & Hst).
  exists resp, w'. split; [assumption |].
  split; [unfold catch; rewrite Hc; reflexivity |].
  split; [assumption |].
  split; [apply Hf | apply (frame_serving w w' Hf Hw)].
Qed.

Lemma X2_witness :
  exists resp w',
    FastAPI_call (FT := Sample.text) (Sample.request "TRACE" "/docs/") Sample.warm
      = (Ok resp, w') /\
    catch (FastAPI_call (FT := Sample.text) (Sample.request "TRACE" "/docs/"))
          (fun _ => ret send_500_response) Sample.warm = (Ok resp, w') /\
    In (status_code resp) answer_statuses /\
    events w' = events Sample.warm /\
    serving w'.
Proof.
  apply (X2_application_always_answers (H := Sample.text)
           (Sample.request "TRACE" "/docs/") Sample.warm).
  exists (mkFastAPI (routes loaded_app) (Some "{}")). split; reflexivity.
Defined.

(** X3. No request is taken by two routes of the loaded table: the route
    the program registers for [/] neither hides one of the framework's
    routes nor is hidden by one. *)
Theorem X3_routes_do_not_overlap (req : Request) (r1 r2 : Route) :
  In r1 (routes loaded_app) -> In r2 (routes loaded_app) ->
  Routing.matches r1 req <> NONE -> Routing.matches r2 req <> NONE ->
  r1 = r2.
Proof.
  intros Hin1 Hin2 Hm1 Hm2.
  apply matches_path in Hm1. apply matches_path in Hm2.
  rewrite loaded_routes in Hin1, Hin2. simpl in Hin1, Hin2.
  destruct Hin1 as [<- | [<- | [<- | [<- | [<- | []]]]]];
    destruct Hin2 as [<- | [<- | [<- | [<- | [<- | []]]]]];
    try reflexivity; exfalso; simpl in Hm1, Hm2;
    destruct Hm1 as [Hm1 | Hm1]; destruct Hm2 as [Hm2 | Hm2];
    rewrite Hm1 in Hm2; discriminate Hm2.
Qed.

Lemma X3_witness :
  root_route = root_route.
Proof.
  apply (X3_routes_do_not_overlap (Sample.request "DELETE" "/") root_route root_route).
  - rewrite loaded_routes. simpl. auto 6.
  - rewrite loaded_routes. simpl. auto 6.
  - discriminate.
  - discriminate.
Defined.

(** X4. The route the program registers takes GET and nothing else: any
    other method on [/], HEAD included, is answered with 405, an [Allow]
    header naming GET alone and a JSON body, and the state of the process
    is left as it was. *)
Theorem X4_root_takes_get_only `{FrameworkText} (req : Request) (w : World) :
  serving w ->
  req_path req = "/" ->
  req_method req <> "GET" ->
  FastAPI_call req w = (Ok root_method_not_allowed, w) /\
  In ("allow", "GET") (raw_headers root_method_not_allowed).
Proof.
  intros Hw Hp Hm. split; [| simpl; auto].
  rewrite (FastAPI_call_root_405 req w Hw (or_introl Hp) Hm). reflexivity.
Qed.

Lemma X4_witness :
  FastAPI_call (FT := Sample.text) (Sample.request "HEAD" "/") Sample.warm
    = (Ok root_method_not_allowed, Sample.warm) /\
  In ("allow", "GET") (raw_headers root_method_not_allowed).
Proof.
  apply (X4_root_takes_get_only (H := Sample.text)
           (Sample.request "HEAD" "/") Sample.warm).
  - exists (mkFastAPI (routes loaded_app) (Some "{}")). split; reflexivity.
  - reflexivity.
  - discriminate.
Defined.
